(** * batchflow: the Dataset class (batchflow/dataset.py)

    A shallow embedding of [Dataset] over an explicit Python object store.
    Objects live in a heap indexed by locations, so that "the same object"
    is equality of locations and "a new object" is a location that was not
    allocated before the call.  Methods are state-and-exception passing
    functions on that heap. *)

From stdpp Require Import gmap strings list.
From Stdlib Require Import ZArith.

Open Scope string_scope.

(** ** Python classes

    A class is known by its qualified name and carries the names of its
    proper ancestors in method resolution order.  [issubclass c d] is
    Python's test: [d] occurs in the MRO of [c]. *)

Record pyclass := PyClass { cls_name : string; cls_bases : list string }.

#[global] Instance pyclass_eq_dec : EqDecision pyclass.
Proof. solve_decision. Defined.

Definition mro (c : pyclass) : list string := cls_name c :: cls_bases c.

Definition issubclass (c d : pyclass) : bool := bool_decide (cls_name d ∈ mro c).

(** [str(cls)], as the [%s] conversion of a class prints it. *)
Definition class_repr (c : pyclass) : string := "<class '" ++ cls_name c ++ "'>".

Definition object_class : pyclass := PyClass "object" [].
Definition NoneType : pyclass := PyClass "NoneType" ["object"].
Definition int_class : pyclass := PyClass "int" ["object"].
Definition list_class : pyclass := PyClass "list" ["object"].
Definition type_class : pyclass := PyClass "type" ["object"].

(** The classes [dataset.py] imports or defines. *)
Definition Baseset : pyclass := PyClass "batchflow.base.Baseset" ["object"].
Definition DatasetIndex : pyclass :=
  PyClass "batchflow.dsindex.DatasetIndex" ["batchflow.base.Baseset"; "object"].
Definition Batch : pyclass := PyClass "batchflow.batch.Batch" ["object"].
Definition Pipeline : pyclass := PyClass "batchflow.pipeline.Pipeline" ["object"].
Definition Dataset : pyclass :=
  PyClass "batchflow.dataset.Dataset" ["batchflow.base.Baseset"; "object"].

(** ** Exceptions and results *)

Inductive exn :=
| IndexError
| TypeError (msg : string)
| AttributeError (msg : string)
| ValueError (msg : string).

Inductive result (A : Type) :=
| Ok (a : A)
| Raise (e : exn).
Arguments Ok {A} a.
Arguments Raise {A} e.

Definition loc := positive.

Section Model.

(** Item identifiers: the element type of the [indices] array. *)
Context {Id : Type} `{EqDecision Id}.

(** ** Values and objects *)

Inductive value :=
| VNone
| VInt (n : Z)
| VSeq (xs : list Id)        (* a raw collection of identifiers or positions *)
| VClass (c : pyclass)
| VRef (l : loc).            (* a reference to a heap object *)

Definition kwargs := list (string * value).

Record action := Action { act_name : string; act_args : list value }.

Inductive obj :=
| DatasetIndexObj (cls : pyclass) (indices : list Id)
| DatasetObj (cls : pyclass) (index : value) (batch_class : option pyclass) (preloaded : value)
| PipelineObj (cls : pyclass) (dataset : value) (actions : list action) (config : value)
| BatchObj (cls : pyclass) (index : value) (preloaded : value) (kw : kwargs)
| OtherObj (cls : pyclass).

(** The object store. *)
Abbreviation heap := (gmap loc obj).

Definition class_of (o : obj) : pyclass :=
  match o with
  | DatasetIndexObj c _ | DatasetObj c _ _ _ | PipelineObj c _ _ _
  | BatchObj c _ _ _ | OtherObj c => c
  end.

(** The constructor of [obj] records which class of the package an object
    is an instance of; [cls] is its concrete class, the class itself or one
    derived from it.  [isinstance(x, DatasetIndex)] and
    [isinstance(x, Pipeline)] are read off the constructor. *)

Definition deref (h : heap) (v : value) : option obj :=
  match v with
  | VRef l => h !! l
  | _ => None
  end.

(** [type(v)].  Python has no dangling reference; for a location outside the
    heap the model answers [object]. *)
Definition type_of (h : heap) (v : value) : pyclass :=
  match v with
  | VNone => NoneType
  | VInt _ => int_class
  | VSeq _ => list_class
  | VClass _ => type_class
  | VRef l => from_option class_of object_class (h !! l)
  end.

(** [isinstance(v, type(w))] *)
Definition isinstance_type_of (h : heap) (v w : value) : bool :=
  issubclass (type_of h v) (type_of h w).

Definition is_DatasetIndex (h : heap) (v : value) : bool :=
  match deref h v with
  | Some (DatasetIndexObj _ _) => true
  | _ => false
  end.

Definition is_Pipeline (h : heap) (v : value) : bool :=
  match deref h v with
  | Some (PipelineObj _ _ _ _) => true
  | _ => false
  end.

(** ** The state and exception monad of method bodies *)

Definition M (A : Type) : Type := heap → result A * heap.

Definition ret {A} (a : A) : M A := λ h, (Ok a, h).
Definition raise {A} (e : exn) : M A := λ h, (Raise e, h).
Definition bind {A B} (m : M A) (k : A → M B) : M B :=
  λ h, match m h with
       | (Ok a, h') => k a h'
       | (Raise e, h') => (Raise e, h')
       end.
Definition get_heap : M heap := λ h, (Ok h, h).

Notation "'let!' x ':=' m 'in' k" := (bind m (λ x, k))
  (at level 10, x name, m at level 100, k at level 200).

(** Object creation: a location that is not in use. *)
Definition alloc (o : obj) : M loc :=
  λ h, let l := fresh (dom h) in (Ok l, <[l := o]> h).

(** [m] leaves the object at [l] as it is: whatever is stored there before
    the call is stored there afterwards, whether [m] returns or raises. *)
Definition keeps {A} (m : M A) (l : loc) : Prop :=
  ∀ h o, h !! l = Some o → (m h).2 !! l = Some o.

(** ** numpy arrays of identifiers (one-dimensional) *)

Definition shape (a : list Id) : list nat := [length a].

(** [a == b] elementwise, for arrays of one shape. *)
Definition array_eq (a b : list Id) : list bool :=
  zip_with (λ x y, bool_decide (x = y)) a b.

Definition np_all (bs : list bool) : bool := forallb id bs.

(** ** Attribute access *)

(** [x.indices].  A DatasetIndex holds the array; on a Dataset the attribute
    is the array of its index (class docstring: "indices: an array with the
    indices"; the property itself is inherited from Baseset). *)
Definition getattr_indices (v : value) : M (list Id) :=
  λ h, match deref h v with
       | Some (DatasetIndexObj _ a) => (Ok a, h)
       | Some (DatasetObj _ i _ _) =>
           match deref h i with
           | Some (DatasetIndexObj _ a) => (Ok a, h)
           | _ => (Raise (AttributeError "indices"), h)
           end
       | _ => (Raise (AttributeError "indices"), h)
       end.

(** The attributes [index], [batch_class] and [preloaded] of a Dataset. *)
Definition getattr_index (l : loc) : M value :=
  λ h, match h !! l with
       | Some (DatasetObj _ i _ _) => (Ok i, h)
       | _ => (Raise (AttributeError "index"), h)
       end.

Definition getattr_batch_class (l : loc) : M (option pyclass) :=
  λ h, match h !! l with
       | Some (DatasetObj _ _ bc _) => (Ok bc, h)
       | _ => (Raise (AttributeError "batch_class"), h)
       end.

Definition getattr_preloaded (l : loc) : M value :=
  λ h, match h !! l with
       | Some (DatasetObj _ _ _ pre) => (Ok pre, h)
       | _ => (Raise (AttributeError "preloaded"), h)
       end.

(** ** What dataset.py imports: the index, batch and pipeline classes *)

Class Collaborators := {
  (** the identifiers that [DatasetIndex(raw)] stores for a raw value *)
  index_of_raw : heap → value → result (list Id);
  (** [DatasetIndex.create_batch(self, index, pos, *args, **kwargs)] *)
  DatasetIndex_create_batch : value → value → bool → list value → kwargs → M value;
  (** calling a batch class: [batch_class(index, preloaded=..., **kwargs)] *)
  Batch_call : pyclass → value → value → kwargs → M value;
  (** numpy: [np.isin(a, b)] brings the two arrays to a common dtype before
      it compares them, so that it may report an element [x] of [a] as
      present although no element of [b] equals it (int64 against uint64
      meet in float64, where neighbouring integers beyond 2^53 coincide);
      [np_isin_collides a b x] tells whether it does *)
  np_isin_collides : list Id → list Id → Id → bool
}.

Context `{!Collaborators}.

(** [np.isin(a, b)]: an element of [a] is reported when it equals an element
    of [b], and also when numpy's comparison confuses it with one. *)
Definition np_isin (a b : list Id) : list bool :=
  map (λ x, bool_decide (x ∈ b) || np_isin_collides a b x) a.

(** Modelled from the spec: the constructor call [DatasetIndex(raw)] (the
    module dsindex.py is not among the sources).  It "constructs a new
    DatasetIndex wrapping raw"; which identifiers a raw value stands for is
    left to [index_of_raw]. *)
Definition DatasetIndex_new (raw : value) : M value :=
  let! h := get_heap in
  match index_of_raw h raw with
  | Ok a => let! l := alloc (DatasetIndexObj DatasetIndex a) in ret (VRef l)
  | Raise e => raise e
  end.

(** Modelled from the spec: [Pipeline.__lshift__] (the module pipeline.py is
    not among the sources).  The binding operator "returns the pipeline
    re-bound to dataset"; the docstring of [__rshift__] calls it the
    "Pipeline object which now has Dataset object as attribute". *)
Definition Pipeline_lshift (self : loc) (other : value) : M value :=
  λ h, match h !! self with
       | Some (PipelineObj c _ acts cfg) =>
           (Ok (VRef self), <[self := PipelineObj c other acts cfg]> h)
       | _ => (Raise (AttributeError "dataset"), h)
       end.

(** ** Dataset *)

(** [Dataset.build_index] (static method) *)
Definition build_index (index : value) : M value :=
  let! h := get_heap in
  if is_DatasetIndex h index then ret index
  else DatasetIndex_new index.

(** [cls(index, batch_class=..., preloaded=...)]: [Dataset.__init__] passes
    the index to the base initialiser and stores the two other references.
    Modelled from the spec: [Baseset.__init__] (base.py is not among the
    sources) wraps the index with [build_index] and stores it, with "no side
    effects beyond storing references".  The new object enters the heap when
    its initialiser returns. *)
Definition Dataset_new (cls : pyclass) (index : value)
    (batch_class : option pyclass) (preloaded : value) : M loc :=
  let! i := build_index index in
  alloc (DatasetObj cls i batch_class preloaded).

(** [Dataset._is_same_index] (static method) *)
Definition _is_same_index (index1 index2 : value) : M bool :=
  let! h := get_heap in
  if isinstance_type_of h index1 index2 || isinstance_type_of h index2 index1 then
    let! a1 := getattr_indices index1 in
    let! a2 := getattr_indices index2 in
    if bool_decide (shape a1 = shape a2) then ret (np_all (array_eq a1 a2))
    else ret false
  else ret false.

(** [Dataset.from_dataset] (class method); [batch_class = None] is the
    default of the parameter.  [or] and [and] evaluate their right operand
    only when the left one does not decide. *)
Definition from_dataset (cls : pyclass) (dataset : loc) (index : value)
    (batch_class : option pyclass) : M loc :=
  let! same_class :=
    (match batch_class with
     | None => ret true
     | Some c =>
         let! d_batch_class := getattr_batch_class dataset in
         ret (bool_decide (Some c = d_batch_class))
     end) in
  let! same :=
    (if (same_class : bool) then
       let! d_index := getattr_index dataset in _is_same_index index d_index
     else ret false) in
  if (same : bool) then ret dataset
  else
    let! bcl :=
      (match batch_class with
       | Some c => ret (Some c)
       | None => getattr_batch_class dataset
       end) in
    let! d_preloaded := getattr_preloaded dataset in
    Dataset_new cls index bcl d_preloaded.

(** [Dataset.create_subset] *)
Definition create_subset (self : loc) (index : value) : M loc :=
  let! a := getattr_indices index in
  let! own := getattr_indices (VRef self) in
  if np_all (np_isin a own) then
    let! h := get_heap in
    from_dataset (type_of h (VRef self)) self index None
  else raise IndexError.

(** The call [self.batch_class(index, preloaded=self.preloaded, **kwargs)]:
    a keyword given twice is rejected while the arguments are assembled. *)
Definition call_batch_class (batch_class : option pyclass)
    (index preloaded : value) (kw : kwargs) : M value :=
  if bool_decide ("preloaded" ∈ kw.*1) then
    raise (TypeError "got multiple values for keyword argument 'preloaded'")
  else match batch_class with
       | Some c => Batch_call c index preloaded kw
       | None => raise (TypeError "'NoneType' object is not callable")
       end.

(** [Dataset.create_batch] *)
Definition create_batch (self : loc) (index : value) (pos : bool)
    (args : list value) (kw : kwargs) : M value :=
  let! h := get_heap in
  let! index' :=
    (if is_DatasetIndex h index then ret index
     else
       let! own_index := getattr_index self in
       DatasetIndex_create_batch own_index index pos args kw) in
  let! d_batch_class := getattr_batch_class self in
  let! d_preloaded := getattr_preloaded self in
  call_batch_class d_batch_class index' d_preloaded kw.

(** [Dataset.__rshift__] *)
Definition rshift_message (c : pyclass) : string :=
  "Pipeline is expected, but got " ++ class_repr c ++ ". Use as dataset >> pipeline".

Definition __rshift__ (self : loc) (other : value) : M value :=
  let! h := get_heap in
  if is_Pipeline h other then
    match other with
    | VRef p => Pipeline_lshift p (VRef self)
    | _ => raise (TypeError "unsupported operand type(s) for <<")
    end
  else raise (TypeError (rshift_message (type_of h other))).

End Model.

Notation "'let!' x ':=' m 'in' k" := (bind m (λ x, k))
  (at level 10, x name, m at level 100, k at level 200).

Arguments value : clear implicits.
Arguments obj : clear implicits.
Arguments kwargs : clear implicits.
Arguments M : clear implicits.
Arguments Collaborators : clear implicits.

Abbreviation heap Id := (gmap loc (obj Id)).

(** ** Index equality, in words

    Follows the spec (4.1): "same concrete shape (element count) and
    elementwise-equal identifiers, regardless of which concrete subtype each
    side is". *)
Definition spec_index_equal {Id} (h : heap Id) (i1 i2 : value Id) : Prop :=
  ∃ c1 a1 c2 a2,
    deref h i1 = Some (DatasetIndexObj c1 a1) ∧
    deref h i2 = Some (DatasetIndexObj c2 a2) ∧
    length a1 = length a2 ∧ ∀ k, a1 !! k = a2 !! k.

(** One of the two concrete classes derives from the other (or they are the
    same class): the first conjunct of [_is_same_index]. *)
Definition related_types (c1 c2 : pyclass) : Prop :=
  issubclass c1 c2 = true ∨ issubclass c2 c1 = true.

(** Index equality as [_is_same_index] decides it. *)
Definition same_index {Id} (h : heap Id) (i1 i2 : value Id) : Prop :=
  ∃ c1 a1 c2 a2,
    deref h i1 = Some (DatasetIndexObj c1 a1) ∧
    deref h i2 = Some (DatasetIndexObj c2 a2) ∧
    related_types c1 c2 ∧
    length a1 = length a2 ∧ ∀ k, a1 !! k = a2 !! k.

(** ** A concrete universe: integer identifiers *)

Module Examples.

Open Scope Z_scope.
Open Scope positive_scope.

Definition FilesIndex : pyclass :=
  PyClass "batchflow.dsindex.FilesIndex"
    ["batchflow.dsindex.DatasetIndex"; "batchflow.base.Baseset"; "object"].

(** Two classes derived from DatasetIndex side by side. *)
Definition IndexA : pyclass :=
  PyClass "client.IndexA"
    ["batchflow.dsindex.DatasetIndex"; "batchflow.base.Baseset"; "object"].
Definition IndexB : pyclass :=
  PyClass "client.IndexB"
    ["batchflow.dsindex.DatasetIndex"; "batchflow.base.Baseset"; "object"].

Definition ImagesBatch : pyclass :=
  PyClass "client.ImagesBatch" ["batchflow.batch.Batch"; "object"].

Definition range (n : Z) : list Z := seqZ 0 n.

(** Modelled from the spec: what [DatasetIndex(raw)] wraps, "a raw collection
    or an integer count meaning synthesize indices 0..count-1". *)
Definition raw_indices (h : heap Z) (raw : value Z) : result (list Z) :=
  match raw with
  | VSeq xs => Ok xs
  | VInt n => Ok (range n)
  | _ => Raise (TypeError "index should be a collection or a count")
  end.

(** Modelled from the spec: [DatasetIndex.create_batch] (dsindex.py is not
    among the sources).  Without the positions flag the input holds
    identifiers "that must themselves be elements of the index"; with it,
    "positional offsets into the ordered sequence".  The result is "a new
    DatasetIndex representing exactly that batch, preserving the order given
    by the input". *)
Definition index_create_batch (self index : value Z) (pos : bool)
    (args : list (value Z)) (kw : kwargs Z) : M Z (value Z) :=
  λ h,
    match deref h self, index with
    | Some (DatasetIndexObj c a), VSeq xs =>
        let picked :=
          if pos then mapM (λ p, if bool_decide (0 ≤ p)%Z then a !! Z.to_nat p else None) xs
          else if forallb (λ x, bool_decide (x ∈ a)) xs then Some xs else None in
        match picked with
        | Some ys => (let! l := alloc (DatasetIndexObj c ys) in ret (VRef l)) h
        | None => (Raise IndexError, h)
        end
    | _, _ => (Raise (TypeError "a collection of identifiers or positions is expected"), h)
    end.

(** A batch class that stores what it is given. *)
Definition batch_init (c : pyclass) (index preloaded : value Z) (kw : kwargs Z)
    : M Z (value Z) :=
  let! l := alloc (BatchObj c index preloaded kw) in ret (VRef l).

(** *** numpy on arrays of Python integers

    [np.array] stores integers as int64, and as uint64 when an element does
    not fit int64. *)
Definition is_uint64 (a : list Z) : bool := existsb (λ x, 2 ^ 63 <=? x)%Z a.

(** The value of an integer as a float64: the nearest number with a 53-bit
    significand, ties to the even one. *)
Definition to_float64 (z : Z) : Z :=
  let m := Z.abs z in
  let e := (Z.log2 m - 52)%Z in
  if (e <=? 0)%Z then z
  else
    let q := (m / 2 ^ e)%Z in
    let r := (m mod 2 ^ e)%Z in
    let up := (2 ^ (e - 1) <? r)%Z || ((r =? 2 ^ (e - 1))%Z && Z.odd q) in
    (Z.sgn z * ((if up then q + 1 else q) * 2 ^ e))%Z.

(** Integer arrays whose values span a small range are looked up in a
    table: [ar2_range <= 6 * (ar1.size + ar2.size)]. *)
Definition isin_by_table (a b : list Z) : bool :=
  match b with
  | [] => true
  | y :: b' =>
      let hi := foldr Z.max y b' in
      let lo := foldr Z.min y b' in
      (hi - lo <=? 6 * (Z.of_nat (length a) + Z.of_nat (length b)))%Z
  end.

(** Short second arrays are compared element by element:
    [len(ar2) < 10 * len(ar1) ** 0.145], both sides raised to the power
    1000. *)
Definition isin_by_loop (a b : list Z) : bool :=
  (Z.of_nat (length b) ^ 1000 <? 10 ^ 1000 * Z.of_nat (length a) ^ 145)%Z.

(** Otherwise the two arrays, each without repetitions and ascending, are
    concatenated, which casts int64 with uint64 to float64, and sorted by a
    stable sort; an element is reported when its successor equals it: a
    larger element of [a] with the same float64 value, or an element of
    [b] with the same float64 value. *)
Definition isin_by_sort (a b : list Z) (x : Z) : bool :=
  existsb (λ x', (x <? x')%Z && (to_float64 x' =? to_float64 x)%Z) a
  || existsb (λ y, (to_float64 y =? to_float64 x)%Z) b.

Definition isin_collides (a b : list Z) (x : Z) : bool :=
  xorb (is_uint64 a) (is_uint64 b)
  && negb (isin_by_table a b) && negb (isin_by_loop a b)
  && isin_by_sort a b x.

#[local] Instance collaborators : Collaborators Z :=
  {| index_of_raw := raw_indices;
     DatasetIndex_create_batch := index_create_batch;
     Batch_call := batch_init;
     np_isin_collides := isin_collides |}.

(** [D = Dataset(DatasetIndex(range(4)))] at location 2, its index at 1; an
    index of the sibling class with the same identifiers at 3, a FilesIndex
    with identifiers outside the dataset at 4, a pipeline at 5. *)
Definition store : heap Z :=
  <[1 := DatasetIndexObj IndexA (range 4)]>
  (<[2 := DatasetObj Dataset (VRef 1) (Some Batch) (VInt 7)]>
  (<[3 := DatasetIndexObj IndexB (range 4)]>
  (<[4 := DatasetIndexObj FilesIndex [2; 9]%Z]>
  (<[5 := PipelineObj Pipeline VNone [Action "load" []] VNone]> ∅)))).

End Examples.

(** * Properties *)

Section Properties.

Context {Id : Type} `{EqDecision Id} `{!Collaborators Id}.

Implicit Types (h : heap Id) (v index other : value Id) (a : list Id)
  (l d p : loc) (c cls : pyclass) (kw : kwargs Id).

(** ** Arrays *)

Lemma shape_eq_length a1 a2 : shape a1 = shape a2 ↔ length a1 = length a2.
Proof. unfold shape. split; [by intros [= ->] | by intros ->]. Qed.

Lemma np_all_array_eq a1 a2 :
  length a1 = length a2 →
  np_all (array_eq a1 a2) = true ↔ ∀ k, a1 !! k = a2 !! k.
Proof.
  revert a2. induction a1 as [|x a1 IH]; intros [|y a2] Hlen; simplify_eq/=.
  - done.
  - rewrite andb_true_iff, bool_decide_eq_true, (IH a2) by done. split.
    + intros [-> Hk] [|k]; simpl; [done | apply Hk].
    + intros Hk. split; [by injection (Hk 0%nat) | intros k; apply (Hk (S k))].
Qed.

Lemma forallb_isin (f : Id → bool) (a own : list Id) :
  forallb id (map (λ x, bool_decide (x ∈ own) || f x) a) = true ↔
  ∀ x, x ∈ a → x ∈ own ∨ f x = true.
Proof.
  induction a as [|x a IH]; simpl.
  - split; [intros _ x Hx; by apply elem_of_nil in Hx | done].
  - rewrite andb_true_iff, orb_true_iff, bool_decide_eq_true, IH. split.
    + intros [Hx Ha] y [->|Hy]%elem_of_cons; auto.
    + intros Hall. split; [apply Hall; left | intros y Hy; apply Hall; by right].
Qed.

Lemma np_all_isin a own :
  np_all (np_isin a own) = true ↔
  ∀ x, x ∈ a → x ∈ own ∨ np_isin_collides a own x = true.
Proof. apply forallb_isin. Qed.



Lemma np_all_isin_contained a own :
  (∀ x, x ∈ a → x ∈ own) → np_all (np_isin a own) = true.
Proof. intros Hall. apply np_all_isin. intros x Hx. left. by apply Hall. Qed.

(** ** Class tests *)

Lemma issubclass_refl c : issubclass c c = true.
Proof. unfold issubclass, mro. apply bool_decide_eq_true. by left. Qed.

Lemma related_types_refl c : related_types c c.
Proof. left. apply issubclass_refl. Qed.

Lemma related_types_orb c1 c2 :
  issubclass c1 c2 || issubclass c2 c1 = true ↔ related_types c1 c2.
Proof. unfold related_types. apply orb_true_iff. Qed.

(** ** The heap only grows under allocation *)

Lemma alloc_fresh (o : obj Id) h :
  ∃ l, h !! l = None ∧ alloc o h = (Ok l, <[l := o]> h).
Proof.
  exists (fresh (dom h)). split; [|done].
  apply not_elem_of_dom, is_fresh.
Qed.

(** ** Running method bodies *)

Lemma bind_Ok {A B} (m : M Id A) (k : A → M Id B) h (x : A) h' :
  m h = (Ok x, h') → bind m k h = k x h'.
Proof. unfold bind. by intros ->. Qed.

Lemma bind_Raise {A B} (m : M Id A) (k : A → M Id B) h e h' :
  m h = (Raise e, h') → bind m k h = (Raise e, h').
Proof. unfold bind. by intros ->. Qed.

Lemma bind_bind {A B C} (m : M Id A) (k1 : A → M Id B) (k2 : B → M Id C) h :
  bind (bind m k1) k2 h = bind m (λ x, bind (k1 x) k2) h.
Proof. unfold bind. by destruct (m h) as [[x|e] h']. Qed.

Lemma bind_get_heap {B} (k : heap Id → M Id B) h : bind get_heap k h = k h h.
Proof. done. Qed.

Lemma getattr_indices_index h l c a :
  h !! l = Some (DatasetIndexObj c a) → getattr_indices (VRef l) h = (Ok a, h).
Proof. unfold getattr_indices; simpl. by intros ->. Qed.

Lemma getattr_indices_dataset h d cls l bc pre c a :
  h !! d = Some (DatasetObj cls (VRef l) bc pre) →
  h !! l = Some (DatasetIndexObj c a) →
  getattr_indices (VRef d) h = (Ok a, h).
Proof. unfold getattr_indices; simpl. intros ->; simpl. by intros ->. Qed.

Lemma getattr_index_run h d cls i bc pre :
  h !! d = Some (DatasetObj cls i bc pre) → getattr_index d h = (Ok i, h).
Proof. unfold getattr_index. by intros ->. Qed.

Lemma getattr_batch_class_run h d cls i bc pre :
  h !! d = Some (DatasetObj cls i bc pre) → getattr_batch_class d h = (Ok bc, h).
Proof. unfold getattr_batch_class. by intros ->. Qed.

Lemma getattr_preloaded_run h d cls i bc pre :
  h !! d = Some (DatasetObj cls i bc pre) → getattr_preloaded d h = (Ok pre, h).
Proof. unfold getattr_preloaded. by intros ->. Qed.

(** Reading the attributes of a Dataset known to be at [d]. *)
Ltac read_attrs Hd :=
  repeat first
    [ rewrite (bind_Ok _ _ _ _ _ (getattr_index_run _ _ _ _ _ _ Hd))
    | rewrite (bind_Ok _ _ _ _ _ (getattr_batch_class_run _ _ _ _ _ _ Hd))
    | rewrite (bind_Ok _ _ _ _ _ (getattr_preloaded_run _ _ _ _ _ _ Hd))
    | rewrite bind_get_heap ].

Lemma is_DatasetIndex_true h v :
  is_DatasetIndex h v = true ↔ ∃ l c a, v = VRef l ∧ h !! l = Some (DatasetIndexObj c a).
Proof.
  unfold is_DatasetIndex, deref. split.
  - destruct v as [| | | |l]; try done.
    destruct (h !! l) as [[]|] eqn:E; try done. eauto.
  - intros (l & c & a & -> & ->). done.
Qed.

Lemma is_Pipeline_true h v :
  is_Pipeline h v = true ↔
  ∃ p c ds acts cfg, v = VRef p ∧ h !! p = Some (PipelineObj c ds acts cfg).
Proof.
  unfold is_Pipeline, deref. split.
  - destruct v as [| | | |l]; try done.
    destruct (h !! l) as [[]|] eqn:E; try done. eauto 10.
  - intros (l & c & ds & acts & cfg & -> & ->). done.
Qed.

(** ** Index equality *)

Lemma is_same_index_run h l1 l2 c1 a1 c2 a2 :
  h !! l1 = Some (DatasetIndexObj c1 a1) →
  h !! l2 = Some (DatasetIndexObj c2 a2) →
  _is_same_index (VRef l1) (VRef l2) h =
    (Ok ((issubclass c1 c2 || issubclass c2 c1)
         && bool_decide (shape a1 = shape a2) && np_all (array_eq a1 a2)), h).
Proof.
  intros H1 H2.
  unfold _is_same_index. rewrite bind_get_heap.
  unfold isinstance_type_of, type_of. rewrite H1, H2; simpl.
  destruct (issubclass c1 c2 || issubclass c2 c1); simpl; [|done].
  rewrite (bind_Ok _ _ _ _ _ (getattr_indices_index _ _ _ _ H1)).
  rewrite (bind_Ok _ _ _ _ _ (getattr_indices_index _ _ _ _ H2)).
  by destruct (bool_decide (shape a1 = shape a2)).
Qed.

Lemma is_same_index_true_iff h l1 l2 c1 a1 c2 a2 :
  h !! l1 = Some (DatasetIndexObj c1 a1) →
  h !! l2 = Some (DatasetIndexObj c2 a2) →
  _is_same_index (VRef l1) (VRef l2) h = (Ok true, h) ↔
  related_types c1 c2 ∧ length a1 = length a2 ∧ ∀ k, a1 !! k = a2 !! k.
Proof.
  intros H1 H2. rewrite (is_same_index_run _ _ _ _ _ _ _ H1 H2).
  rewrite <- related_types_orb, <- shape_eq_length.
  destruct (issubclass c1 c2 || issubclass c2 c1); simpl;
    [|split; [done | by intros [? _]]].
  case_bool_decide as Hs; simpl; [|split; [done | by intros (_ & ? & _)]].
  apply shape_eq_length in Hs.
  rewrite <- (np_all_array_eq _ _ Hs). split.
  - intros [= ->]. by rewrite shape_eq_length.
  - by intros (_ & _ & ->).
Qed.

Lemma same_index_unfold h l1 l2 c1 a1 c2 a2 :
  h !! l1 = Some (DatasetIndexObj c1 a1) →
  h !! l2 = Some (DatasetIndexObj c2 a2) →
  same_index h (VRef l1) (VRef l2) ↔
  related_types c1 c2 ∧ length a1 = length a2 ∧ ∀ k, a1 !! k = a2 !! k.
Proof.
  intros H1 H2. unfold same_index; simpl. split.
  - intros (c1' & a1' & c2' & a2' & E1 & E2 & Hrest). by simplify_eq.
  - intros Hrest. by exists c1, a1, c2, a2.
Qed.

Lemma is_same_index_Ok h l1 l2 c1 a1 c2 a2 :
  h !! l1 = Some (DatasetIndexObj c1 a1) →
  h !! l2 = Some (DatasetIndexObj c2 a2) →
  ∃ b : bool, _is_same_index (VRef l1) (VRef l2) h = (Ok b, h) ∧
              (b = true ↔ same_index h (VRef l1) (VRef l2)).
Proof.
  intros H1 H2.
  pose proof (is_same_index_true_iff _ _ _ _ _ _ _ H1 H2) as Hiff.
  rewrite (is_same_index_run _ _ _ _ _ _ _ H1 H2) in *.
  eexists; split; [done|].
  rewrite (same_index_unfold _ _ _ _ _ _ _ H1 H2), <- Hiff.
  split; [by intros -> | by intros [= ->]].
Qed.

(** ** Construction *)

Lemma build_index_existing h l c a :
  h !! l = Some (DatasetIndexObj c a) → build_index (VRef l) h = (Ok (VRef l), h).
Proof.
  intros Hl. unfold build_index. rewrite bind_get_heap.
  unfold is_DatasetIndex; simpl. by rewrite Hl.
Qed.

Lemma build_index_raw h v :
  is_DatasetIndex h v = false → build_index v h = DatasetIndex_new v h.
Proof.
  intros Hv. unfold build_index. rewrite bind_get_heap. by rewrite Hv.
Qed.

Lemma DatasetIndex_new_Ok h v a :
  index_of_raw h v = Ok a →
  ∃ l, h !! l = None ∧
       DatasetIndex_new v h = (Ok (VRef l), <[l := DatasetIndexObj DatasetIndex a]> h).
Proof.
  intros Hraw. unfold DatasetIndex_new. rewrite bind_get_heap, Hraw.
  destruct (alloc_fresh (DatasetIndexObj DatasetIndex a) h) as (l & Hl & Ha).
  exists l. split; [done|]. by rewrite (bind_Ok _ _ _ _ _ Ha).
Qed.

Lemma DatasetIndex_new_Raise h v e :
  index_of_raw h v = Raise e → DatasetIndex_new v h = (Raise e, h).
Proof. intros Hraw. unfold DatasetIndex_new. by rewrite bind_get_heap, Hraw. Qed.

Lemma Dataset_new_existing h cls l c a bc pre :
  h !! l = Some (DatasetIndexObj c a) →
  ∃ d', h !! d' = None ∧
        Dataset_new cls (VRef l) bc pre h =
          (Ok d', <[d' := DatasetObj cls (VRef l) bc pre]> h).
Proof.
  intros Hl. unfold Dataset_new.
  rewrite (bind_Ok _ _ _ _ _ (build_index_existing _ _ _ _ Hl)).
  apply alloc_fresh.
Qed.

(** ** from_dataset *)

(** The left operand of [and]: the requested batch class is missing or is
    the one of the source dataset. *)
Lemma same_class_run h d dcls i bcD pre bc :
  h !! d = Some (DatasetObj dcls i bcD pre) →
  match bc with
  | None => ret true
  | Some c =>
      let! d_batch_class := getattr_batch_class d in
      ret (bool_decide (Some c = d_batch_class))
  end h = (Ok (bool_decide (bc = None ∨ bc = bcD)), h).
Proof.
  intros Hd. destruct bc as [c|].
  - read_attrs Hd. unfold ret. do 2 f_equal.
    apply bool_decide_ext. split; [by right | by intros [?|?]].
  - unfold ret. by rewrite bool_decide_eq_true_2 by (by left).
Qed.

Lemma resolved_class_run h d dcls i bcD pre bc :
  h !! d = Some (DatasetObj dcls i bcD pre) →
  match bc with
  | Some c => ret (Some c)
  | None => getattr_batch_class d
  end h = (Ok (default bcD (Some <$> bc)), h).
Proof.
  intros Hd. destruct bc as [c|]; [done|]. by apply getattr_batch_class_run in Hd.
Qed.

Lemma from_dataset_shared h cls d dcls i bcD pre index bc :
  h !! d = Some (DatasetObj dcls i bcD pre) →
  bc = None ∨ bc = bcD →
  _is_same_index index i h = (Ok true, h) →
  from_dataset cls d index bc h = (Ok d, h).
Proof.
  intros Hd Hbc Hsame. unfold from_dataset.
  rewrite (bind_Ok _ _ _ _ _ (same_class_run _ _ _ _ _ _ bc Hd)).
  rewrite bool_decide_eq_true_2 by done.
  rewrite bind_bind. read_attrs Hd. by rewrite (bind_Ok _ _ _ _ _ Hsame).
Qed.

Lemma from_dataset_fresh h cls d dcls i bcD pre l c a bc :
  h !! d = Some (DatasetObj dcls i bcD pre) →
  h !! l = Some (DatasetIndexObj c a) →
  bc = None ∨ bc = bcD →
  _is_same_index (VRef l) i h = (Ok false, h) →
  ∃ d', h !! d' = None ∧
        from_dataset cls d (VRef l) bc h =
          (Ok d', <[d' := DatasetObj cls (VRef l) bcD pre]> h).
Proof.
  intros Hd Hl Hbc Hsame. unfold from_dataset.
  rewrite (bind_Ok _ _ _ _ _ (same_class_run _ _ _ _ _ _ bc Hd)).
  rewrite bool_decide_eq_true_2 by done.
  rewrite bind_bind. read_attrs Hd. rewrite (bind_Ok _ _ _ _ _ Hsame).
  rewrite (bind_Ok _ _ _ _ _ (resolved_class_run _ _ _ _ _ _ bc Hd)).
  read_attrs Hd.
  replace (default bcD (Some <$> bc)) with bcD
    by (destruct Hbc as [-> | ->]; [done | by destruct bcD]).
  by apply (Dataset_new_existing _ _ _ c a).
Qed.

Lemma from_dataset_rebatched h cls d dcls i bcD pre l c a C :
  h !! d = Some (DatasetObj dcls i bcD pre) →
  h !! l = Some (DatasetIndexObj c a) →
  bcD ≠ Some C →
  ∃ d', h !! d' = None ∧
        from_dataset cls d (VRef l) (Some C) h =
          (Ok d', <[d' := DatasetObj cls (VRef l) (Some C) pre]> h).
Proof.
  intros Hd Hl Hne. unfold from_dataset.
  rewrite (bind_Ok _ _ _ _ _ (same_class_run _ _ _ _ _ _ (Some C) Hd)).
  rewrite bool_decide_eq_false_2 by (intros [?|?]; congruence).
  rewrite (bind_Ok (ret false) _ h false h) by done.
  rewrite (bind_Ok _ _ _ _ _ (resolved_class_run _ _ _ _ _ _ (Some C) Hd)).
  read_attrs Hd. by apply (Dataset_new_existing _ _ _ c a).
Qed.

(** ** create_subset *)

Lemma create_subset_run h d cls li ci ai bcD pre l c a :
  h !! d = Some (DatasetObj cls (VRef li) bcD pre) →
  h !! li = Some (DatasetIndexObj ci ai) →
  h !! l = Some (DatasetIndexObj c a) →
  create_subset d (VRef l) h =
    if np_all (np_isin a ai) then from_dataset cls d (VRef l) None h
    else (Raise IndexError, h).
Proof.
  intros Hd Hli Hl. unfold create_subset.
  rewrite (bind_Ok _ _ _ _ _ (getattr_indices_index _ _ _ _ Hl)).
  rewrite (bind_Ok _ _ _ _ _ (getattr_indices_dataset _ _ _ _ _ _ _ _ Hd Hli)).
  destruct (np_all (np_isin a ai)); [|done].
  rewrite bind_get_heap. unfold type_of. by rewrite Hd.
Qed.

Lemma same_index_contained h l li c a ci ai :
  h !! l = Some (DatasetIndexObj c a) →
  h !! li = Some (DatasetIndexObj ci ai) →
  same_index h (VRef l) (VRef li) → a = ai.
Proof.
  intros Hl Hli Hsame.
  apply (same_index_unfold _ _ _ _ _ _ _ Hl Hli) in Hsame as (_ & _ & Hk).
  by apply list_eq.
Qed.

Lemma np_all_isin_refl a : np_all (np_isin a a) = true.
Proof. by apply np_all_isin_contained. Qed.

(** ** Frame: what a call leaves alone *)

Lemma keeps_ret {A} (x : A) l : keeps (ret (Id := Id) x) l.
Proof. by intros h o. Qed.

Lemma keeps_raise {A} e l : keeps (raise (Id := Id) (A := A) e) l.
Proof. by intros h o. Qed.

Lemma keeps_get_heap l : keeps (get_heap (Id := Id)) l.
Proof. by intros h o. Qed.

Lemma keeps_bind {A B} (m : M Id A) (k : A → M Id B) l :
  keeps m l → (∀ x, keeps (k x) l) → keeps (bind m k) l.
Proof.
  intros Hm Hk h o Hl. unfold bind.
  specialize (Hm h o Hl). destruct (m h) as [[x|e] h']; simpl in *; [|done].
  by apply Hk.
Qed.

Lemma keeps_alloc (o : obj Id) l : keeps (alloc o) l.
Proof.
  intros h o' Hl. unfold alloc; simpl.
  rewrite lookup_insert_ne; [done|].
  intros <-. by rewrite (not_elem_of_dom_1 h (fresh (dom h)) (is_fresh _)) in Hl.
Qed.

Lemma keeps_getattr_indices v l : keeps (getattr_indices v) l.
Proof.
  intros h o Hl. unfold getattr_indices.
  destruct (deref h v) as [[? ?|? i ? ?| | |]|]; try done.
  by destruct (deref h i) as [[]|].
Qed.

Lemma keeps_getattr_index d l : keeps (getattr_index (Id := Id) d) l.
Proof. intros h o Hl. unfold getattr_index. by destruct (h !! d) as [[]|]. Qed.

Lemma keeps_getattr_batch_class d l : keeps (getattr_batch_class (Id := Id) d) l.
Proof. intros h o Hl. unfold getattr_batch_class. by destruct (h !! d) as [[]|]. Qed.

Lemma keeps_getattr_preloaded d l : keeps (getattr_preloaded (Id := Id) d) l.
Proof. intros h o Hl. unfold getattr_preloaded. by destruct (h !! d) as [[]|]. Qed.

Create HintDb keeps discriminated.
#[local] Hint Resolve keeps_ret keeps_raise keeps_get_heap keeps_alloc
  keeps_getattr_indices keeps_getattr_index keeps_getattr_batch_class
  keeps_getattr_preloaded : keeps.

Ltac keeps_step :=
  repeat first
    [ apply keeps_bind; [|intros ?]
    | progress auto with keeps
    | match goal with
      | |- keeps (if ?b then _ else _) _ => destruct b
      | |- keeps (match ?x with _ => _ end) _ => destruct x
      end ].

Lemma keeps_is_same_index v1 v2 l : keeps (_is_same_index v1 v2) l.
Proof. unfold _is_same_index. keeps_step. Qed.

Lemma keeps_DatasetIndex_new v l : keeps (DatasetIndex_new v) l.
Proof. unfold DatasetIndex_new. keeps_step. Qed.

Lemma keeps_build_index v l : keeps (build_index v) l.
Proof.
  unfold build_index. pose proof keeps_DatasetIndex_new. keeps_step.
Qed.

Lemma keeps_Dataset_new cls v bc pre l : keeps (Dataset_new cls v bc pre) l.
Proof. unfold Dataset_new. pose proof keeps_build_index. keeps_step. Qed.

Lemma keeps_from_dataset cls d v bc l : keeps (from_dataset cls d v bc) l.
Proof.
  unfold from_dataset.
  pose proof keeps_is_same_index. pose proof keeps_Dataset_new. keeps_step.
Qed.

Lemma keeps_create_subset d v l : keeps (create_subset d v) l.
Proof. unfold create_subset. pose proof keeps_from_dataset. keeps_step. Qed.

Lemma keeps_Pipeline_lshift p v l : p ≠ l → keeps (Pipeline_lshift (Id := Id) p v) l.
Proof.
  intros Hne h o Hl. unfold Pipeline_lshift.
  destruct (h !! p) as [[]|]; try done; simpl.
  by rewrite lookup_insert_ne.
Qed.

(** ** create_batch *)

Lemma create_batch_convert h d dcls i bcD pre v pos args kw :
  h !! d = Some (DatasetObj dcls i bcD pre) →
  is_DatasetIndex h v = false →
  create_batch d v pos args kw h =
    (let! index' := DatasetIndex_create_batch i v pos args kw in
     let! d_batch_class := getattr_batch_class d in
     let! d_preloaded := getattr_preloaded d in
     call_batch_class d_batch_class index' d_preloaded kw) h.
Proof.
  intros Hd Hv. unfold create_batch. rewrite bind_get_heap, Hv.
  unfold bind at 1 2. by rewrite (getattr_index_run _ _ _ _ _ _ Hd).
Qed.

Lemma create_batch_as_is h d dcls i bcD pre v pos args kw :
  h !! d = Some (DatasetObj dcls i bcD pre) →
  is_DatasetIndex h v = true →
  create_batch d v pos args kw h = call_batch_class bcD v pre kw h.
Proof.
  intros Hd Hv. unfold create_batch. rewrite bind_get_heap, Hv.
  rewrite (bind_Ok (ret v) _ h v h) by done. by read_attrs Hd.
Qed.

(** ** The claims *)



(** C4.  With a batch class [C] that is not the one of the Dataset [d],
    [from_dataset(d, I, batch_class=C)] returns a Dataset at a location that
    was free before the call (so not [d]); its index is [I], its batch class
    is [C], and its preloaded field is the preloaded reference of [d]. *)
Theorem from_dataset_other_batch_class h cls d dcls i bcD pre I cI aI C :
  h !! d = Some (DatasetObj dcls i bcD pre) →
  h !! I = Some (DatasetIndexObj cI aI) →
  bcD ≠ Some C →
  ∃ d', h !! d' = None ∧ d' ≠ d ∧
        from_dataset cls d (VRef I) (Some C) h =
          (Ok d', <[d' := DatasetObj cls (VRef I) (Some C) pre]> h).
Proof.
  intros Hd HI Hne.
  destruct (from_dataset_rebatched h cls _ _ _ _ _ _ _ _ C Hd HI Hne)
    as (d' & Hfree & Hnew).
  exists d'. split_and!; [done | congruence | done].
Qed.

(** C7.  [build_index] returns its argument itself, in an unchanged heap,
    when the argument is a DatasetIndex; otherwise it is the constructor call
    [DatasetIndex(raw)], which either raises or returns a DatasetIndex at a
    location that was free before the call, holding what [raw] stands for. *)
Theorem build_index_identity_or_new h v :
  (is_DatasetIndex h v = true → build_index v h = (Ok v, h)) ∧
  (is_DatasetIndex h v = false →
     build_index v h = DatasetIndex_new v h ∧
     (∀ a, index_of_raw h v = Ok a →
        ∃ l, h !! l = None ∧
             build_index v h = (Ok (VRef l), <[l := DatasetIndexObj DatasetIndex a]> h)) ∧
     (∀ e, index_of_raw h v = Raise e → build_index v h = (Raise e, h))).
Proof.
  split.
  - intros (l & c & a & -> & Hl)%is_DatasetIndex_true. by eapply build_index_existing.
  - intros Hv. rewrite (build_index_raw _ _ Hv). split_and!; [done | |].
    + intros a Ha. by apply DatasetIndex_new_Ok.
    + intros e He. by apply DatasetIndex_new_Raise.
Qed.

(** C10 (as amended).  When the argument and the own index of the Dataset
    [d] are equal as [_is_same_index] decides it (related concrete classes,
    same shape, identifiers equal position by position), [create_subset]
    returns the very object [d] in an unchanged heap; in particular
    [d.create_subset(d.index)] is [d]. *)
Theorem create_subset_same_index h d cls li ci ai bcD pre :
  h !! d = Some (DatasetObj cls (VRef li) bcD pre) →
  h !! li = Some (DatasetIndexObj ci ai) →
  (∀ index, same_index h index (VRef li) → create_subset d index h = (Ok d, h)) ∧
  create_subset d (VRef li) h = (Ok d, h).
Proof.
  intros Hd Hli.
  assert (Hgen : ∀ index, same_index h index (VRef li) →
                          create_subset d index h = (Ok d, h)).
  { intros index Hsame.
    pose proof Hsame as (c & a & ci' & ai' & Hl & _).
    destruct index as [| | | |l]; try done. simpl in Hl.
    rewrite (create_subset_run _ _ _ _ _ _ _ _ _ _ _ Hd Hli Hl).
    rewrite <- (same_index_contained _ _ _ _ _ _ _ Hl Hli Hsame), np_all_isin_refl.
    destruct (is_same_index_Ok _ _ _ _ _ _ _ Hl Hli) as (b & Hrun & Hb).
    apply Hb in Hsame as ->.
    eapply from_dataset_shared; eauto. }
  split; [done|]. apply Hgen.
  apply (same_index_unfold _ _ _ _ _ _ _ Hli Hli).
  split_and!; [apply related_types_refl | done | done].
Qed.

(** C5.  When the input of [create_batch] is not a DatasetIndex, the Dataset
    first asks its own index to convert it, passing the positions flag (and
    the extra arguments); an exception of the conversion is the outcome of
    the call.  Otherwise the outcome is that of calling the batch class of
    the Dataset with the converted index, the preloaded payload of the
    Dataset and the keyword arguments, in the heap the conversion left; with
    a batch class [c] and no keyword named preloaded, that call is
    [c(index, preloaded=..., **kwargs)]. *)
Theorem create_batch_converts_raw h d dcls i bcD pre v pos args kw :
  h !! d = Some (DatasetObj dcls i bcD pre) →
  is_DatasetIndex h v = false →
  (∀ i' h' dcls' i2 bc' pre',
     DatasetIndex_create_batch i v pos args kw h = (Ok i', h') →
     h' !! d = Some (DatasetObj dcls' i2 bc' pre') →
     create_batch d v pos args kw h = call_batch_class bc' i' pre' kw h') ∧
  (∀ e h', DatasetIndex_create_batch i v pos args kw h = (Raise e, h') →
     create_batch d v pos args kw h = (Raise e, h')) ∧
  (∀ c i' pre' h', "preloaded" ∉ kw.*1 →
     call_batch_class (Some c) i' pre' kw h' = Batch_call c i' pre' kw h').
Proof.
  intros Hd Hv. rewrite (create_batch_convert _ _ _ _ _ _ _ _ _ _ Hd Hv).
  split_and!.
  - intros i' h' dcls' i2 bc' pre' Hconv Hd'.
    rewrite (bind_Ok _ _ _ _ _ Hconv). by read_attrs Hd'.
  - intros e h' Hconv. by rewrite (bind_Raise _ _ _ _ _ Hconv).
  - intros c i' pre' h' Hkw. unfold call_batch_class.
    by rewrite bool_decide_eq_false_2.
Qed.

(** C6.  [d >> other] raises TypeError exactly when [other] is not a
    Pipeline; the message then contains the printed type of [other] and the
    heap is as before.  When [other] is a Pipeline, the call is the call of
    the pipeline's own binding [other << d]: it returns that pipeline, now
    bound to [d], and the Dataset object is as it was. *)
Theorem rshift_checks_pipeline h d dcls i bcD pre other :
  h !! d = Some (DatasetObj dcls i bcD pre) →
  (is_Pipeline h other = false →
     __rshift__ d other h =
       (Raise (TypeError (rshift_message (type_of h other))), h) ∧
     ∃ s1 s2, rshift_message (type_of h other) =
                s1 ++ class_repr (type_of h other) ++ s2) ∧
  (is_Pipeline h other = true →
     ∃ p c ds acts cfg,
       other = VRef p ∧ h !! p = Some (PipelineObj c ds acts cfg) ∧
       __rshift__ d other h = Pipeline_lshift p (VRef d) h ∧
       __rshift__ d other h =
         (Ok (VRef p), <[p := PipelineObj c (VRef d) acts cfg]> h) ∧
       (<[p := PipelineObj c (VRef d) acts cfg]> h) !! d =
         Some (DatasetObj dcls i bcD pre)) ∧
  ((∃ msg h', __rshift__ d other h = (Raise (TypeError msg), h')) ↔
     is_Pipeline h other = false).
Proof.
  intros Hd.
  assert (Hno : is_Pipeline h other = false →
     __rshift__ d other h =
       (Raise (TypeError (rshift_message (type_of h other))), h)).
  { intros Hp. unfold __rshift__. by rewrite bind_get_heap, Hp. }
  assert (Hyes : is_Pipeline h other = true →
     ∃ p c ds acts cfg,
       other = VRef p ∧ h !! p = Some (PipelineObj c ds acts cfg) ∧
       __rshift__ d other h = Pipeline_lshift p (VRef d) h ∧
       __rshift__ d other h =
         (Ok (VRef p), <[p := PipelineObj c (VRef d) acts cfg]> h) ∧
       (<[p := PipelineObj c (VRef d) acts cfg]> h) !! d =
         Some (DatasetObj dcls i bcD pre)).
  { intros Hp. pose proof Hp as (p & c & ds & acts & cfg & -> & Hl)%is_Pipeline_true.
    exists p, c, ds, acts, cfg.
    assert (__rshift__ d (VRef p) h = Pipeline_lshift p (VRef d) h) as Hcall
      by (unfold __rshift__; by rewrite bind_get_heap, Hp).
    split_and!; [done | done | done | |].
    - rewrite Hcall. unfold Pipeline_lshift. by rewrite Hl.
    - rewrite lookup_insert_ne; [done | congruence]. }
  split_and!; [|done|].
  - intros Hp. split; [by apply Hno|].
    by exists "Pipeline is expected, but got ", ". Use as dataset >> pipeline".
  - split.
    + intros (msg & h' & Hraise).
      destruct (is_Pipeline h other) eqn:Hp; [|done].
      destruct (Hyes eq_refl) as (p & c & ds & acts & cfg & _ & _ & _ & Hok & _).
      congruence.
    + intros Hp. rewrite (Hno Hp). eauto.
Qed.

(** C8.  [create_subset] and [create_batch] leave every object that exists
    before the call as it is, the receiver and its index among them, whether
    they return or raise: [create_subset] for every argument, and
    [create_batch] for every argument as long as the index conversion and
    the batch class it calls leave that object as it is; the body of
    [create_batch] itself writes to no object. *)
Theorem create_subset_create_batch_keep d :
  (∀ v l, keeps (create_subset d v) l) ∧
  (∀ v pos args kw l,
     (∀ i, keeps (DatasetIndex_create_batch i v pos args kw) l) →
     (∀ c i' pre, keeps (Batch_call c i' pre kw) l) →
     keeps (create_batch d v pos args kw) l).
Proof.
  split; [intros v l; apply keeps_create_subset|].
  intros v pos args kw l Hconv Hcall.
  unfold create_batch, call_batch_class. keeps_step.
Qed.

(** C9.  When the argument of [create_batch] is a DatasetIndex, the outcome
    is that of calling the batch class with this very index: neither the
    positions flag, nor the extra positional arguments, nor the identifiers
    of the own index of the Dataset play a part, and the index conversion is
    not called. *)
Theorem create_batch_given_index h d dcls i bcD pre I cI aI pos args kw :
  h !! d = Some (DatasetObj dcls i bcD pre) →
  h !! I = Some (DatasetIndexObj cI aI) →
  create_batch d (VRef I) pos args kw h = call_batch_class bcD (VRef I) pre kw h ∧
  create_batch d (VRef I) pos args kw h = create_batch d (VRef I) (negb pos) [] kw h.
Proof.
  intros Hd HI.
  assert (∀ pos' args',
    create_batch d (VRef I) pos' args' kw h = call_batch_class bcD (VRef I) pre kw h)
    as Hany.
  { intros pos' args'. apply (create_batch_as_is _ _ _ _ _ _ _ _ _ _ Hd).
    unfold is_DatasetIndex; simpl. by rewrite HI. }
  by rewrite !Hany.
Qed.

(** ** Further properties of the Dataset methods *)

Lemma np_all_array_eq_refl a : np_all (array_eq a a) = true.
Proof. by apply np_all_array_eq. Qed.

Lemma np_all_array_eq_sym a1 a2 :
  np_all (array_eq a1 a2) = np_all (array_eq a2 a1).
Proof.
  revert a2. induction a1 as [|x a1 IH]; intros [|y a2]; simpl; try done.
  rewrite IH. f_equal. apply bool_decide_ext. split; by intros ->.
Qed.

Lemma is_same_index_refl h l c a :
  h !! l = Some (DatasetIndexObj c a) →
  _is_same_index (VRef l) (VRef l) h = (Ok true, h).
Proof.
  intros Hl. rewrite (is_same_index_run _ _ _ _ _ _ _ Hl Hl).
  by rewrite issubclass_refl, bool_decide_eq_true_2, np_all_array_eq_refl.
Qed.

Lemma is_same_index_unrelated h v l c a :
  h !! l = Some (DatasetIndexObj c a) →
  ¬ related_types (type_of h v) c →
  _is_same_index v (VRef l) h = (Ok false, h).
Proof.
  intros Hl Hrel. unfold _is_same_index. rewrite bind_get_heap.
  unfold isinstance_type_of. replace (type_of h (VRef l)) with c
    by (simpl; by rewrite Hl).
  destruct (issubclass (type_of h v) c || issubclass c (type_of h v)) eqn:E; [|done].
  by apply related_types_orb in E.
Qed.

Lemma alloc_two (o1 : obj Id) (o2 : loc → obj Id) h :
  ∃ l r, h !! l = None ∧ h !! r = None ∧ l ≠ r ∧
         (let! x := alloc o1 in alloc (o2 x)) h =
           (Ok r, <[r := o2 l]> (<[l := o1]> h)).
Proof.
  destruct (alloc_fresh o1 h) as (l & Hl & Hal).
  destruct (alloc_fresh (o2 l) (<[l := o1]> h)) as (r & Hr & Har).
  exists l, r. apply lookup_insert_None in Hr as [Hr Hne].
  split_and!; [done | done | done |].
  by rewrite (bind_Ok _ _ _ _ _ Hal).
Qed.

Lemma Dataset_new_raw h cls v bc pre a :
  is_DatasetIndex h v = false →
  index_of_raw h v = Ok a →
  ∃ l r, h !! l = None ∧ h !! r = None ∧ l ≠ r ∧
         Dataset_new cls v bc pre h =
           (Ok r, <[r := DatasetObj cls (VRef l) bc pre]>
                    (<[l := DatasetIndexObj DatasetIndex a]> h)).
Proof.
  intros Hv Ha. unfold Dataset_new.
  destruct (alloc_two (DatasetIndexObj DatasetIndex a)
              (λ l, DatasetObj cls (VRef l) bc pre) h) as (l & r & Hl & Hr & Hne & Hrun).
  exists l, r. split_and!; [done | done | done |].
  rewrite <- Hrun. unfold build_index, DatasetIndex_new.
  rewrite !bind_bind, !bind_get_heap, Hv, !bind_bind, bind_get_heap, Ha, !bind_bind.
  unfold bind. by destruct (alloc _ h) as [[x|e] h0].
Qed.

Lemma Dataset_new_raw_Raise h cls v bc pre e :
  is_DatasetIndex h v = false →
  index_of_raw h v = Raise e →
  Dataset_new cls v bc pre h = (Raise e, h).
Proof.
  intros Hv He. unfold Dataset_new.
  apply bind_Raise. rewrite (build_index_raw _ _ Hv).
  by apply DatasetIndex_new_Raise.
Qed.

(** The outcome of a successful [create_subset], in terms of the heap. *)
Lemma create_subset_success h d cls li ci ai bcD pre I cI aI :
  h !! d = Some (DatasetObj cls (VRef li) bcD pre) →
  h !! li = Some (DatasetIndexObj ci ai) →
  h !! I = Some (DatasetIndexObj cI aI) →
  np_all (np_isin aI ai) = true →
  ∃ r h' x cx,
    create_subset d (VRef I) h = (Ok r, h') ∧
    h' !! r = Some (DatasetObj cls (VRef x) bcD pre) ∧
    h' !! x = Some (DatasetIndexObj cx aI) ∧
    (∀ l o, h !! l = Some o → h' !! l = Some o).
Proof.
  intros Hd Hli HI Hall.
  rewrite (create_subset_run _ _ _ _ _ _ _ _ _ _ _ Hd Hli HI).
  rewrite Hall.
  destruct (is_same_index_Ok _ _ _ _ _ _ _ HI Hli) as ([] & Hsame & Hb).
  - exists d, h, li, ci.
    assert (aI = ai) as -> by (eapply same_index_contained; eauto; by apply Hb).
    split_and!; [eapply from_dataset_shared; eauto | done | done | done].
  - destruct (from_dataset_fresh h cls _ _ _ _ _ _ _ _ None Hd HI (or_introl eq_refl) Hsame)
      as (d' & Hfree & Hnew).
    exists d', (<[d' := DatasetObj cls (VRef I) bcD pre]> h), I, cI.
    split_and!; [done | by rewrite lookup_insert_eq | |].
    + rewrite lookup_insert_ne; [done | congruence].
    + intros l o Hl. rewrite lookup_insert_ne; [done | congruence].
Qed.

Lemma create_subset_Ok_reported h d cls li ci ai bcD pre I cI aI r h' :
  h !! d = Some (DatasetObj cls (VRef li) bcD pre) →
  h !! li = Some (DatasetIndexObj ci ai) →
  h !! I = Some (DatasetIndexObj cI aI) →
  create_subset d (VRef I) h = (Ok r, h') →
  np_all (np_isin aI ai) = true.
Proof.
  intros Hd Hli HI Hrun.
  rewrite (create_subset_run _ _ _ _ _ _ _ _ _ _ _ Hd Hli HI) in Hrun.
  by destruct (np_all (np_isin aI ai)).
Qed.

(** X1.  On DatasetIndex objects [_is_same_index] is reflexive and does not
    depend on the order of its two arguments. *)
Theorem is_same_index_refl_sym h l1 l2 c1 a1 c2 a2 :
  h !! l1 = Some (DatasetIndexObj c1 a1) →
  h !! l2 = Some (DatasetIndexObj c2 a2) →
  _is_same_index (VRef l1) (VRef l1) h = (Ok true, h) ∧
  _is_same_index (VRef l1) (VRef l2) h = _is_same_index (VRef l2) (VRef l1) h.
Proof.
  intros H1 H2. split; [by eapply is_same_index_refl|].
  rewrite (is_same_index_run _ _ _ _ _ _ _ H1 H2), (is_same_index_run _ _ _ _ _ _ _ H2 H1).
  rewrite (orb_comm (issubclass c1 c2)), (np_all_array_eq_sym a1 a2).
  by replace (bool_decide (shape a1 = shape a2)) with (bool_decide (shape a2 = shape a1))
    by (apply bool_decide_ext; split; by intros ?).
Qed.

(** X2.  [_is_same_index] is not transitive: an index whose class is related
    to the classes of two others (a common base class, say) is equal to each
    of them when the identifiers agree, while the two others, of unrelated
    classes, are not equal to each other. *)
Theorem is_same_index_through_base h l1 l2 l3 c1 c2 c3 a :
  h !! l1 = Some (DatasetIndexObj c1 a) →
  h !! l2 = Some (DatasetIndexObj c2 a) →
  h !! l3 = Some (DatasetIndexObj c3 a) →
  related_types c1 c2 → related_types c2 c3 → ¬ related_types c1 c3 →
  _is_same_index (VRef l1) (VRef l2) h = (Ok true, h) ∧
  _is_same_index (VRef l2) (VRef l3) h = (Ok true, h) ∧
  _is_same_index (VRef l1) (VRef l3) h = (Ok false, h).
Proof.
  intros H1 H2 H3 R12 R23 R13. split_and!.
  - by apply (is_same_index_true_iff _ _ _ _ _ _ _ H1 H2).
  - by apply (is_same_index_true_iff _ _ _ _ _ _ _ H2 H3).
  - apply is_same_index_unrelated with c3 a; [done|].
    simpl. by rewrite H1.
Qed.


(** X4.  Given a value that is no DatasetIndex and whose type is unrelated
    to the class of the source index, [from_dataset] never returns the
    source: it builds a DatasetIndex from the value and a Dataset around
    it, at two distinct locations that were free, with the requested batch
    class (that of the source when none is requested) and the preloaded
    reference of the source; when the value cannot be made an index, that
    exception is the outcome and the heap is as before. *)
Theorem from_dataset_raw h cls d dcls li ci ai bcD pre v bc :
  h !! d = Some (DatasetObj dcls (VRef li) bcD pre) →
  h !! li = Some (DatasetIndexObj ci ai) →
  is_DatasetIndex h v = false →
  ¬ related_types (type_of h v) ci →
  (∀ a, index_of_raw h v = Ok a →
     ∃ l r, h !! l = None ∧ h !! r = None ∧ l ≠ r ∧
            from_dataset cls d v bc h =
              (Ok r, <[r := DatasetObj cls (VRef l) (default bcD (Some <$> bc)) pre]>
                       (<[l := DatasetIndexObj DatasetIndex a]> h))) ∧
  (∀ e, index_of_raw h v = Raise e → from_dataset cls d v bc h = (Raise e, h)).
Proof.
  intros Hd Hli Hv Hrel.
  assert (Hrun : from_dataset cls d v bc h =
                 Dataset_new cls v (default bcD (Some <$> bc)) pre h).
  { unfold from_dataset.
    rewrite (bind_Ok _ _ _ _ _ (same_class_run _ _ _ _ _ _ bc Hd)).
    assert ((if bool_decide (bc = None ∨ bc = bcD)
             then let! d_index := getattr_index d in _is_same_index v d_index
             else ret false) h = (Ok false, h)) as Hsame.
    { case_bool_decide; [|done]. read_attrs Hd.
      by apply is_same_index_unrelated with ci ai. }
    rewrite (bind_Ok _ _ _ _ _ Hsame).
    rewrite (bind_Ok _ _ _ _ _ (resolved_class_run _ _ _ _ _ _ bc Hd)).
    by read_attrs Hd. }
  rewrite Hrun. split.
  - intros a Ha. by apply Dataset_new_raw.
  - intros e He. by apply Dataset_new_raw_Raise.
Qed.

(** X5.  [create_subset] is idempotent: asking the Dataset it returned for
    the subset with the same index again returns that very Dataset and
    leaves the heap as it is. *)
Theorem create_subset_idempotent h d cls li ci ai bcD pre I cI aI r h' :
  h !! d = Some (DatasetObj cls (VRef li) bcD pre) →
  h !! li = Some (DatasetIndexObj ci ai) →
  h !! I = Some (DatasetIndexObj cI aI) →
  create_subset d (VRef I) h = (Ok r, h') →
  create_subset r (VRef I) h' = (Ok r, h').
Proof.
  intros Hd Hli HI Hrun.
  pose proof (create_subset_Ok_reported _ _ _ _ _ _ _ _ _ _ _ _ _ Hd Hli HI Hrun) as Hall.
  destruct (create_subset_success _ _ _ _ _ _ _ _ _ _ _ Hd Hli HI Hall)
    as (r' & h'' & x & cx & Hrun' & Hr & Hx & Hmono).
  rewrite Hrun in Hrun'. simplify_eq.
  pose proof (Hmono _ _ HI) as HI'.
  rewrite (create_subset_run _ _ _ _ _ _ _ _ _ _ _ Hr Hx HI'), np_all_isin_refl.
  eapply from_dataset_shared; [done | by left |].
  rewrite (is_same_index_run _ _ _ _ _ _ _ HI' Hx).
  assert (related_types cI cx) as Hrel.
  { rewrite (create_subset_run _ _ _ _ _ _ _ _ _ _ _ Hd Hli HI) in Hrun.
    destruct (np_all (np_isin aI ai)); [|done].
    destruct (is_same_index_Ok _ _ _ _ _ _ _ HI Hli) as ([] & Hsame & Hb).
    - rewrite (from_dataset_shared _ _ _ _ _ _ _ _ None Hd (or_introl eq_refl) Hsame) in Hrun.
      simplify_eq.
      by destruct (proj1 (same_index_unfold _ _ _ _ _ _ _ HI Hli) (proj1 Hb eq_refl)).
    - destruct (from_dataset_fresh h cls _ _ _ _ _ _ _ _ None Hd HI (or_introl eq_refl) Hsame)
        as (d' & Hfree & Hnew).
      rewrite Hnew in Hrun. simplify_eq.
      rewrite lookup_insert_eq in Hr. simplify_eq. apply related_types_refl. }
  apply related_types_orb in Hrel as ->.
  by rewrite bool_decide_eq_true_2, np_all_array_eq_refl.
Qed.


(** X7.  With a DatasetIndex argument [create_batch] fails with a TypeError,
    without calling the batch class and without touching the heap, when the
    keyword arguments hold a key named preloaded (the call already passes
    preloaded), and when the batch class of the Dataset is None. *)
Theorem create_batch_rejects h d dcls i bcD pre I cI aI pos args kw :
  h !! d = Some (DatasetObj dcls i bcD pre) →
  h !! I = Some (DatasetIndexObj cI aI) →
  "preloaded" ∈ kw.*1 ∨ bcD = None →
  ∃ msg, create_batch d (VRef I) pos args kw h = (Raise (TypeError msg), h).
Proof.
  intros Hd HI Hbad.
  rewrite (create_batch_as_is _ _ _ _ _ _ _ pos args kw Hd)
    by (unfold is_DatasetIndex; simpl; by rewrite HI).
  unfold call_batch_class. case_bool_decide as Hkw; [by eexists|].
  destruct Hbad as [? | ->]; [done | by eexists].
Qed.

(** X8.  [create_subset] does not take a raw collection, a count or None in
    place of an index: the argument has no [indices] attribute, an
    AttributeError is raised before any identifier is compared, whatever the
    receiver is, and the heap is as before. *)
Theorem create_subset_raw_argument h d :
  (∀ xs, create_subset d (VSeq xs) h = (Raise (AttributeError "indices"), h)) ∧
  (∀ n, create_subset d (VInt n) h = (Raise (AttributeError "indices"), h)) ∧
  create_subset d VNone h = (Raise (AttributeError "indices"), h).
Proof. split_and!; intros; by apply bind_Raise. Qed.

(** X9.  Whatever [build_index] returns is a DatasetIndex, and calling
    [build_index] on it again returns the same object and leaves the heap as
    it is. *)
Theorem build_index_idempotent h v i h' :
  build_index v h = (Ok i, h') →
  is_DatasetIndex h' i = true ∧ build_index i h' = (Ok i, h').
Proof.
  intros Hrun.
  assert (is_DatasetIndex h' i = true) as Hi.
  { destruct (is_DatasetIndex h v) eqn:Hv.
    - apply is_DatasetIndex_true in Hv as Hv'. destruct Hv' as (l & c & a & -> & Hl).
      rewrite (build_index_existing _ _ _ _ Hl) in Hrun. by simplify_eq.
    - rewrite (build_index_raw _ _ Hv) in Hrun.
      destruct (index_of_raw h v) as [a|e] eqn:Ha.
      + destruct (DatasetIndex_new_Ok _ _ _ Ha) as (l & Hl & Hnew).
        rewrite Hnew in Hrun. simplify_eq.
        unfold is_DatasetIndex; simpl. by rewrite lookup_insert_eq.
      + by rewrite (DatasetIndex_new_Raise _ _ _ Ha) in Hrun. }
  split; [done|].
  apply is_DatasetIndex_true in Hi as (l & c & a & -> & Hl).
  by eapply build_index_existing.
Qed.

(** X10.  [_is_same_index] is a pure test: for all arguments, DatasetIndex
    objects or not, it leaves the heap exactly as it is, also when it
    raises. *)
Theorem is_same_index_pure v1 v2 h : (_is_same_index v1 v2 h).2 = h.
Proof.
  unfold _is_same_index. rewrite bind_get_heap.
  destruct (_ || _); [|done].
  unfold bind, getattr_indices.
  destruct (deref h v1) as [[? a1|? i1 ? ?| | |]|]; try done;
    [|destruct (deref h i1) as [[? a1| | | |]|]; try done];
    (destruct (deref h v2) as [[? a2|? i2 ? ?| | |]|]; try done;
     [|destruct (deref h i2) as [[? a2| | | |]|]; try done]);
    by destruct (bool_decide (shape a1 = shape a2)).
Qed.


End Properties.

(** * The theorems at concrete inputs *)

Section Concrete.

Import Examples.
#[local] Existing Instance Examples.collaborators.
#[local] Open Scope positive_scope.

Lemma store_dataset :
  store !! 2 = Some (DatasetObj Dataset (VRef 1) (Some Batch) (VInt 7)).
Proof. reflexivity. Qed.

Lemma store_own_index : store !! 1 = Some (DatasetIndexObj IndexA (range 4)).
Proof. reflexivity. Qed.

Lemma store_sibling_index : store !! 3 = Some (DatasetIndexObj IndexB (range 4)).
Proof. reflexivity. Qed.

Lemma store_files_index : store !! 4 = Some (DatasetIndexObj FilesIndex [2; 9]%Z).
Proof. reflexivity. Qed.

Lemma siblings_spec_index_equal : spec_index_equal store (VRef 3) (VRef 1).
Proof. exists IndexB, (range 4), IndexA, (range 4). by split_and!. Qed.

Lemma siblings_unrelated : ¬ related_types IndexB IndexA.
Proof. by intros [H|H]; vm_compute in H. Qed.

Lemma siblings_not_same_index : ¬ same_index store (VRef 3) (VRef 1).
Proof.
  intros Hs.
  apply (same_index_unfold _ _ _ _ _ _ _ store_sibling_index store_own_index) in Hs.
  destruct Hs as [Hrel _]. by apply siblings_unrelated.
Qed.



(** C10, refuted as stated: the argument equals the own index by shape and
    identifiers, and [create_subset] returns a Dataset at 6, not the Dataset
    at 2. *)
Lemma create_subset_sibling_counterexample :
  spec_index_equal store (VRef 3) (VRef 1) ∧
  create_subset 2 (VRef 3) store =
    (Ok 6, <[6 := DatasetObj Dataset (VRef 3) (Some Batch) (VInt 7)]> store) ∧
  create_subset 2 (VRef 3) store ≠ (Ok 2, store).
Proof.
  split; [apply siblings_spec_index_equal|].
  assert (create_subset 2 (VRef 3) store =
    (Ok 6, <[6 := DatasetObj Dataset (VRef 3) (Some Batch) (VInt 7)]> store)) as ->
    by (vm_compute; reflexivity).
  split; [done | intros E; by apply (f_equal fst) in E].
Qed.

Lemma keeps_index_create_batch self v pos args kw l :
  keeps (index_create_batch self v pos args kw) l.
Proof.
  intros h o Hl. unfold index_create_batch.
  destruct (deref h self) as [[c a| | | |]|]; try done.
  destruct v as [| |xs| |]; try done.
  match goal with |- context [match ?x with Some _ => _ | None => _ end] =>
    destruct x as [ys|] end; [|done].
  by apply (keeps_bind (alloc (DatasetIndexObj c ys)) _ l (keeps_alloc _ _)
              (λ x, keeps_ret _ _)).
Qed.

Lemma keeps_batch_init c i pre kw l : keeps (batch_init c i pre kw) l.
Proof.
  apply keeps_bind; [apply keeps_alloc | intros x; apply keeps_ret].
Qed.

(** ** Instances of the theorems *)



Lemma from_dataset_other_batch_class_witness :
  store !! 2 = Some (DatasetObj Dataset (VRef 1) (Some Batch) (VInt 7)) ∧
  store !! 1 = Some (DatasetIndexObj IndexA (range 4)) ∧
  Some Batch ≠ Some ImagesBatch ∧
  ∃ d', store !! d' = None ∧ d' ≠ 2 ∧
        from_dataset Dataset 2 (VRef 1) (Some ImagesBatch) store =
          (Ok d', <[d' := DatasetObj Dataset (VRef 1) (Some ImagesBatch) (VInt 7)]> store).
Proof.
  split_and!; [reflexivity | reflexivity | discriminate |].
  apply (from_dataset_other_batch_class store Dataset 2 Dataset (VRef 1)
           (Some Batch) (VInt 7) 1 IndexA (range 4) ImagesBatch);
    [reflexivity | reflexivity | discriminate].
Defined.

Lemma create_batch_converts_raw_witness :
  store !! 2 = Some (DatasetObj Dataset (VRef 1) (Some Batch) (VInt 7)) ∧
  is_DatasetIndex store (VSeq [0; 2]%Z) = false ∧
  create_batch 2 (VSeq [0; 2]%Z) true [] [] store =
    (Ok (VRef 7),
     <[7 := BatchObj Batch (VRef 6) (VInt 7) []]>
       (<[6 := DatasetIndexObj IndexA [0; 2]%Z]> store)).
Proof.
  split_and!; [reflexivity | reflexivity |].
  destruct (create_batch_converts_raw store 2 Dataset (VRef 1) (Some Batch) (VInt 7)
              (VSeq [0; 2]%Z) true [] [] eq_refl eq_refl) as (Hok & _ & _).
  rewrite (Hok (VRef 6) (<[6 := DatasetIndexObj IndexA [0; 2]%Z]> store)
             Dataset (VRef 1) (Some Batch) (VInt 7));
    vm_compute; reflexivity.
Defined.

Lemma rshift_checks_pipeline_witness :
  store !! 2 = Some (DatasetObj Dataset (VRef 1) (Some Batch) (VInt 7)) ∧
  is_Pipeline store (VInt 3) = false ∧
  __rshift__ 2 (VInt 3) store =
    (Raise (TypeError
       "Pipeline is expected, but got <class 'int'>. Use as dataset >> pipeline"),
     store).
Proof.
  split_and!; [reflexivity | reflexivity |].
  destruct (rshift_checks_pipeline store 2 Dataset (VRef 1) (Some Batch) (VInt 7)
              (VInt 3) eq_refl) as (Hno & _ & _).
  exact (proj1 (Hno eq_refl)).
Defined.

Lemma build_index_identity_or_new_witness :
  is_DatasetIndex store (VRef 4) = true ∧
  build_index (VRef 4) store = (Ok (VRef 4), store) ∧
  is_DatasetIndex store (VInt 3) = false ∧
  index_of_raw store (VInt 3) = Ok [0; 1; 2]%Z ∧
  ∃ l, store !! l = None ∧
       build_index (VInt 3) store =
         (Ok (VRef l), <[l := DatasetIndexObj DatasetIndex [0; 1; 2]%Z]> store).
Proof.
  split_and!; [reflexivity | | reflexivity | reflexivity |].
  - apply (proj1 (build_index_identity_or_new store (VRef 4))). reflexivity.
  - destruct (proj2 (build_index_identity_or_new store (VInt 3)) eq_refl)
      as (_ & Hok & _).
    apply Hok. reflexivity.
Defined.

Lemma create_subset_create_batch_keep_witness :
  (∀ i, keeps (DatasetIndex_create_batch i (VSeq [0; 2]%Z) true [] []) 2) ∧
  (∀ c i' pre, keeps (Batch_call c i' pre []) 2) ∧
  (create_batch 2 (VSeq [0; 2]%Z) true [] [] store).2 !! 2 = store !! 2 ∧
  (create_subset 2 (VRef 4) store).2 !! 2 = store !! 2.
Proof.
  pose proof (λ i, keeps_index_create_batch i (VSeq [0; 2]%Z) true [] [] 2) as Hconv.
  pose proof (λ c i' pre, keeps_batch_init c i' pre [] 2) as Hcall.
  destruct (create_subset_create_batch_keep 2) as [Hsub Hbatch].
  split_and!; [exact Hconv | exact Hcall | |].
  - apply (Hbatch (VSeq [0; 2]%Z) true [] [] 2 Hconv Hcall store). reflexivity.
  - apply (Hsub (VRef 4) 2 store). reflexivity.
Defined.

Lemma create_batch_given_index_witness :
  store !! 2 = Some (DatasetObj Dataset (VRef 1) (Some Batch) (VInt 7)) ∧
  store !! 4 = Some (DatasetIndexObj FilesIndex [2; 9]%Z) ∧
  (∃ x, x ∈ [2; 9]%Z ∧ x ∉ range 4) ∧
  create_batch 2 (VRef 4) true [VInt 1] [] store =
    (Ok (VRef 6), <[6 := BatchObj Batch (VRef 4) (VInt 7) []]> store).
Proof.
  split_and!; [reflexivity | reflexivity | |].
  - exists 9%Z. split; apply (bool_decide_unpack _); vm_compute; exact I.
  - rewrite (proj1 (create_batch_given_index store 2 Dataset (VRef 1) (Some Batch)
                      (VInt 7) 4 FilesIndex [2; 9]%Z true [VInt 1] [] eq_refl eq_refl)).
    vm_compute; reflexivity.
Defined.

Lemma create_subset_same_index_witness :
  store !! 2 = Some (DatasetObj Dataset (VRef 1) (Some Batch) (VInt 7)) ∧
  store !! 1 = Some (DatasetIndexObj IndexA (range 4)) ∧
  create_subset 2 (VRef 1) store = (Ok 2, store).
Proof.
  split_and!; [reflexivity | reflexivity |].
  apply (create_subset_same_index store 2 Dataset 1 IndexA (range 4) (Some Batch) (VInt 7));
    reflexivity.
Defined.

(** ** Instances of the further properties *)

(** The store with an index of the base class holding the identifiers of the
    two sibling indices. *)
Definition store_base : heap Z :=
  <[6 := DatasetIndexObj DatasetIndex (range 4)]> store.

(** The store with two smaller indices: [1; 3] at 7 and [2] at 8. *)
Definition store_sub : heap Z :=
  <[7 := DatasetIndexObj DatasetIndex [1; 3]%Z]>
  (<[8 := DatasetIndexObj DatasetIndex [2]%Z]> store).

(** [store_sub] after [create_subset] of the Dataset at 2 with the index at 7. *)
Definition store_sub' : heap Z :=
  <[9 := DatasetObj Dataset (VRef 7) (Some Batch) (VInt 7)]> store_sub.

Lemma is_same_index_refl_sym_witness :
  store !! 1 = Some (DatasetIndexObj IndexA (range 4)) ∧
  store !! 3 = Some (DatasetIndexObj IndexB (range 4)) ∧
  _is_same_index (VRef 1) (VRef 1) store = (Ok true, store) ∧
  _is_same_index (VRef 1) (VRef 3) store = _is_same_index (VRef 3) (VRef 1) store.
Proof.
  split_and!; [reflexivity | reflexivity | |];
    apply (is_same_index_refl_sym store 1 3 IndexA (range 4) IndexB (range 4));
    reflexivity.
Defined.

Lemma is_same_index_through_base_witness :
  related_types IndexA DatasetIndex ∧ related_types DatasetIndex IndexB ∧
  ¬ related_types IndexA IndexB ∧
  _is_same_index (VRef 1) (VRef 6) store_base = (Ok true, store_base) ∧
  _is_same_index (VRef 6) (VRef 3) store_base = (Ok true, store_base) ∧
  _is_same_index (VRef 1) (VRef 3) store_base = (Ok false, store_base).
Proof.
  assert (related_types IndexA DatasetIndex) as R12 by (left; reflexivity).
  assert (related_types DatasetIndex IndexB) as R23 by (right; reflexivity).
  assert (¬ related_types IndexA IndexB) as R13
    by (intros [H|H]; vm_compute in H; discriminate H).
  split_and!; [exact R12 | exact R23 | exact R13 | | |];
    apply (is_same_index_through_base store_base 1 6 3 IndexA DatasetIndex IndexB
             (range 4) eq_refl eq_refl eq_refl R12 R23 R13).
Defined.


Lemma from_dataset_raw_witness :
  store !! 2 = Some (DatasetObj Dataset (VRef 1) (Some Batch) (VInt 7)) ∧
  store !! 1 = Some (DatasetIndexObj IndexA (range 4)) ∧
  is_DatasetIndex store (VInt 3) = false ∧
  ¬ related_types (type_of store (VInt 3)) IndexA ∧
  index_of_raw store (VInt 3) = Ok [0; 1; 2]%Z ∧
  ∃ l r, store !! l = None ∧ store !! r = None ∧ l ≠ r ∧
         from_dataset Dataset 2 (VInt 3) None store =
           (Ok r, <[r := DatasetObj Dataset (VRef l) (Some Batch) (VInt 7)]>
                    (<[l := DatasetIndexObj DatasetIndex [0; 1; 2]%Z]> store)).
Proof.
  assert (¬ related_types (type_of store (VInt 3)) IndexA) as Hrel
    by (intros [H|H]; vm_compute in H; discriminate H).
  split_and!; [reflexivity | reflexivity | reflexivity | exact Hrel | reflexivity |].
  apply (proj1 (from_dataset_raw store Dataset 2 Dataset 1 IndexA (range 4)
                  (Some Batch) (VInt 7) (VInt 3) None eq_refl eq_refl eq_refl Hrel)).
  reflexivity.
Defined.

Lemma create_subset_idempotent_witness :
  store_sub !! 2 = Some (DatasetObj Dataset (VRef 1) (Some Batch) (VInt 7)) ∧
  store_sub !! 1 = Some (DatasetIndexObj IndexA (range 4)) ∧
  store_sub !! 7 = Some (DatasetIndexObj DatasetIndex [1; 3]%Z) ∧
  create_subset 2 (VRef 7) store_sub = (Ok 9, store_sub') ∧
  create_subset 9 (VRef 7) store_sub' = (Ok 9, store_sub').
Proof.
  assert (create_subset 2 (VRef 7) store_sub = (Ok 9, store_sub')) as Hrun
    by (vm_compute; reflexivity).
  split_and!; [reflexivity | reflexivity | reflexivity | exact Hrun |].
  apply (create_subset_idempotent store_sub 2 Dataset 1 IndexA (range 4) (Some Batch)
           (VInt 7) 7 DatasetIndex [1; 3]%Z 9 store_sub' eq_refl eq_refl eq_refl Hrun).
Defined.


Lemma create_batch_rejects_witness :
  store !! 2 = Some (DatasetObj Dataset (VRef 1) (Some Batch) (VInt 7)) ∧
  store !! 4 = Some (DatasetIndexObj FilesIndex [2; 9]%Z) ∧
  "preloaded" ∈ [("preloaded", @VNone Z)].*1 ∧
  ∃ msg, create_batch 2 (VRef 4) false [] [("preloaded", VNone)] store =
           (Raise (TypeError msg), store).
Proof.
  assert ("preloaded" ∈ [("preloaded", @VNone Z)].*1) as Hkw
    by (apply (bool_decide_unpack _); vm_compute; exact I).
  split_and!; [reflexivity | reflexivity | exact Hkw |].
  apply (create_batch_rejects store 2 Dataset (VRef 1) (Some Batch) (VInt 7)
           4 FilesIndex [2; 9]%Z false [] [("preloaded", VNone)] eq_refl eq_refl).
  by left.
Defined.

Lemma build_index_idempotent_witness :
  build_index (VInt 3) store =
    (Ok (VRef 6), <[6 := DatasetIndexObj DatasetIndex [0; 1; 2]%Z]> store) ∧
  build_index (VRef 6) (<[6 := DatasetIndexObj DatasetIndex [0; 1; 2]%Z]> store) =
    (Ok (VRef 6), <[6 := DatasetIndexObj DatasetIndex [0; 1; 2]%Z]> store).
Proof.
  assert (build_index (VInt 3) store =
    (Ok (VRef 6), <[6 := DatasetIndexObj DatasetIndex [0; 1; 2]%Z]> store)) as Hrun
    by (vm_compute; reflexivity).
  split; [exact Hrun|].
  exact (proj2 (build_index_idempotent store (VInt 3) (VRef 6) _ Hrun)).
Defined.


(** ** Where [create_subset] departs from its docstring *)

(** The identifiers 0..8 and 2^63-1 (an int64 array). *)
Definition wide_ids : list Z := range 9 ++ [2 ^ 63 - 1]%Z.

(** A Dataset at 2 over [wide_ids], at 1; at 3 an index holding 2^63 alone
    (a uint64 array). *)
Definition wide_store : heap Z :=
  <[1 := DatasetIndexObj DatasetIndex wide_ids]>
  (<[2 := DatasetObj Dataset (VRef 1) (Some Batch) VNone]>
  (<[3 := DatasetIndexObj DatasetIndex [2 ^ 63]%Z]> ∅)).

(** C2, at the input where the code departs from it.  The index at 3 holds
    2^63, which is no identifier of the Dataset at 2; [np.isin] compares the
    uint64 array with the int64 array in float64, where 2^63 and 2^63-1 are
    one number, the containment check passes, no IndexError is raised and
    [create_subset] returns a new Dataset, at 4, whose index is the one at
    3. *)
Lemma create_subset_uint64_collision :
  (2 ^ 63)%Z ∈ [2 ^ 63]%Z ∧ ((2 ^ 63)%Z ∉ wide_ids) ∧
  np_isin [2 ^ 63]%Z wide_ids = [true] ∧
  create_subset 2 (VRef 3) wide_store =
    (Ok 4, <[4 := DatasetObj Dataset (VRef 3) (Some Batch) VNone]> wide_store).
Proof.
  split_and!; [| | vm_compute; reflexivity | vm_compute; reflexivity];
    apply (bool_decide_unpack _); vm_compute; exact I.
Qed.

End Concrete.
